(** * Undo/redo history in the DesignPatterns examples

    A shallow embedding of the two history mechanisms of the repository:

    - [memento/ex001.py] (and [memento/ex002.py], whose [Originator] and
      [Caretaker] are statement for statement the same, with the snapshot
      class nested in the originator): full-state snapshots kept by a
      caretaker;
    - [command/ex003.py]: commands that keep their own backup of the editor
      text and a global command history.

    Python objects become records, methods become computations in a small
    state-and-exception monad in which, as in Python, the effects made before
    a [raise] persist.  [print] appends a line to an explicit [stdout];
    [datetime.now()] and [random.sample] are inputs of the operations that
    call them. *)

From Stdlib Require Import String Ascii List Bool Arith Lia.
Import ListNotations.
Local Open Scope list_scope.
Local Open Scope string_scope.

(** ** Python run-time notions shared by the examples *)

Module Py.

(** The built-in exceptions the modelled statements can raise.  All three
    are subclasses of [Exception]. *)
Inductive exn : Type :=
| AttributeError
| IndexError
| TypeError.

(** How a call ends: it returns a value or an exception escapes from it. *)
Inductive outcome (A : Type) : Type :=
| Return (a : A)
| Raise (e : exn).
Arguments Return {A} a.
Arguments Raise {A} e.

(** A computation over a store [S].  The store is threaded through an
    exception too: what was mutated before the [raise] stays mutated. *)
Definition M (S A : Type) : Type := S -> outcome A * S.

Definition ret {S A} (a : A) : M S A := fun s => (Return a, s).

Definition bind {S A B} (m : M S A) (k : A -> M S B) : M S B :=
  fun s =>
    match m s with
    | (Return a, s') => k a s'
    | (Raise e, s') => (Raise e, s')
    end.

Definition raise {S A} (e : exn) : M S A := fun s => (Raise e, s).

Definition get {S} : M S S := fun s => (Return s, s).

Definition put {S} (s : S) : M S unit := fun _ => (Return tt, s).

(** [try: body  except Exception: handler]. *)
Definition try_except {S A} (body handler : M S A) : M S A :=
  fun s =>
    match body s with
    | (Return a, s') => (Return a, s')
    | (Raise _, s') => handler s'
    end.

(** A value that is either [None] or a [str]. *)
Definition optstr : Type := option string.

(** [f"{v}"] for such a value. *)
Definition fmt (v : optstr) : string :=
  match v with
  | Some s => s
  | None => "None"
  end.

(** [l.pop()] on a list: the last element and the list without it, or
    nothing when the list is empty (where Python raises [IndexError]). *)
Fixpoint list_pop {A} (l : list A) : option (A * list A) :=
  match l with
  | [] => None
  | x :: l' =>
      match list_pop l' with
      | None => Some (x, [])
      | Some (y, r) => Some (y, x :: r)
      end
  end.

(** [s[i:j]] for [0 <= i <= j]. *)
Definition slice (i j : nat) (s : string) : string := substring i (j - i) s.

(** [s.replace(old, new)]: every non-overlapping occurrence of [old],
    scanning from the left.  [skip] counts the characters of a matched
    occurrence still to be dropped.  With an empty [old] Python puts [new]
    before every character and at the end. *)
Fixpoint replace_from (skip : nat) (old new s : string) : string :=
  match s with
  | EmptyString =>
      match old with
      | EmptyString => new
      | _ => EmptyString
      end
  | String c s' =>
      match skip with
      | Datatypes.S k => replace_from k old new s'
      | O =>
          match old with
          | EmptyString => new ++ String c (replace_from O old new s')
          | _ =>
              if prefix old s
              then new ++ replace_from (String.length old - 1) old new s'
              else String c (replace_from O old new s')
          end
      end
  end.

Definition replace (old new s : string) : string := replace_from O old new s.

Definition newline : string := String (ascii_of_nat 10) EmptyString.

(** [n] calls of [m] in a row. *)
Fixpoint repeat_call {S} (m : M S unit) (n : nat) : M S unit :=
  match n with
  | O => ret tt
  | Datatypes.S k => bind m (fun _ => repeat_call m k)
  end.

(** [n] calls of [m] in a row, collecting what [obs] reads off the store
    after each call. *)
Fixpoint visit {S A} (obs : S -> A) (m : M S unit) (n : nat) : M S (list A) :=
  match n with
  | O => ret []
  | Datatypes.S k =>
      bind m (fun _ =>
      bind get (fun s =>
      bind (visit obs m k) (fun rest =>
      ret (obs s :: rest))))
  end.

(** The calls [ms] in turn, collecting what [obs] reads off the store
    before each of them. *)
Fixpoint run_observed {S A} (obs : S -> A) (ms : list (M S unit))
  : M S (list A) :=
  match ms with
  | [] => ret []
  | m :: rest =>
      bind get (fun s =>
      bind m (fun _ =>
      bind (run_observed obs rest) (fun r =>
      ret (obs s :: r))))
  end.

End Py.

Module PyNotations.
Declare Scope py_scope.
Delimit Scope py_scope with py.
Notation "x <- m ;; k" := (Py.bind m (fun x => k))
  (at level 61, m at next level, right associativity) : py_scope.
Notation "m ;; k" := (Py.bind m (fun _ => k))
  (at level 61, right associativity) : py_scope.
End PyNotations.
Import PyNotations.

(** ** [memento/ex001.py] and [memento/ex002.py] *)

Module Memento.

(** [class Snapshot(Memento)]; in [ex002.py], [Originator.Snapshot]. *)
Module Snapshot.

(** [state] holds whatever the constructor received; [Originator.restore]
    copies it into the originator's [_state], which is [None] or a [str],
    so the field ranges over the same values. *)
Record t : Type := make { state : Py.optstr; date : string }.

(** [__init__(self, state)], where [now] is [str(datetime.now())]. *)
Definition init (now : string) (state0 : Py.optstr) : t :=
  {| state := state0; date := Py.slice 0 19 now |}.

(** The [name] property: [f"{self.date} / ({self.state[0:9]}...)"].
    [None] is not subscriptable. *)
Definition name {S} (self : t) : Py.M S string :=
  match state self with
  | Some s => Py.ret (date self ++ " / (" ++ Py.slice 0 9 s ++ "...)")
  | None => Py.raise Py.TypeError
  end.

(** [__repr__]: the stripped text of the triple-quoted f-string. *)
Definition repr (self : t) : string :=
  "Snapshot { state: " ++ Py.fmt (state self) ++ ", date: " ++ date self ++ "}".

End Snapshot.

Module Originator.
(** The instance attributes [_state] and [restored]. *)
Record t : Type := make { _state : Py.optstr; restored : list Snapshot.t }.
End Originator.

Module Caretaker.
(** The instance attribute [_history].  The other attribute,
    [_originator], is a reference to the one originator of the [World]
    below, the object the client also holds and mutates. *)
Record t : Type := make { _history : list Snapshot.t }.
End Caretaker.

(** The objects of a run and the lines printed so far. *)
Record World : Type := mkWorld {
  originator : Originator.t;
  caretaker : Caretaker.t;
  stdout : list string
}.

Definition print (line : string) : Py.M World unit :=
  fun w => (Py.Return tt,
            mkWorld (originator w) (caretaker w) (stdout w ++ [line])%list).

Definition get_state : Py.M World Py.optstr :=
  fun w => (Py.Return (Originator._state (originator w)), w).

Definition set_state (v : Py.optstr) : Py.M World unit :=
  fun w => (Py.Return tt,
            mkWorld (Originator.make v (Originator.restored (originator w)))
                    (caretaker w) (stdout w)).

Definition get_restored : Py.M World (list Snapshot.t) :=
  fun w => (Py.Return (Originator.restored (originator w)), w).

Definition set_restored (l : list Snapshot.t) : Py.M World unit :=
  fun w => (Py.Return tt,
            mkWorld (Originator.make (Originator._state (originator w)) l)
                    (caretaker w) (stdout w)).

Definition get_history : Py.M World (list Snapshot.t) :=
  fun w => (Py.Return (Caretaker._history (caretaker w)), w).

Definition set_history (l : list Snapshot.t) : Py.M World unit :=
  fun w => (Py.Return tt,
            mkWorld (originator w) (Caretaker.make l) (stdout w)).

Local Open Scope py_scope.

(** [self.restored.append(m)] and [self._history.append(m)]. *)
Definition restored_append (m : Snapshot.t) : Py.M World unit :=
  l <- get_restored ;; set_restored (l ++ [m])%list.

Definition history_append (m : Snapshot.t) : Py.M World unit :=
  l <- get_history ;; set_history (l ++ [m])%list.

(** [self._originator.restored.pop()] and [self._history.pop()]. *)
Definition restored_pop : Py.M World Snapshot.t :=
  l <- get_restored ;;
  match Py.list_pop l with
  | Some (m, l') => set_restored l' ;; Py.ret m
  | None => Py.raise Py.IndexError
  end.

Definition history_pop : Py.M World Snapshot.t :=
  l <- get_history ;;
  match Py.list_pop l with
  | Some (m, l') => set_history l' ;; Py.ret m
  | None => Py.raise Py.IndexError
  end.

(** [originator = Originator(state); caretaker = Caretaker(originator)],
    started with [out] already printed. *)
Definition start (state0 : Py.optstr) (out : list string) : World :=
  mkWorld (Originator.make state0 [])
          (Caretaker.make [])
          (out ++ [("Originator: My initial state is: " ++ Py.fmt state0)%string])%list.

(** [Originator.do_something]; [rnd] is what
    [self._generate_random_string(5)] returned. *)
Definition Originator_do_something (rnd : string) : Py.M World unit :=
  print "Originator: I'm doing something important." ;;
  set_state (Some rnd) ;;
  print ("Originator: and my state has changed to: " ++ rnd).

(** [Originator.save]; [now] is [str(datetime.now())] when the snapshot is
    built. *)
Definition Originator_save (now : string) : Py.M World Snapshot.t :=
  st <- get_state ;;
  match st with
  | None => Py.raise Py.AttributeError
  | Some _ => Py.ret (Snapshot.init now st)
  end.

(** [Originator.restore]. *)
Definition Originator_restore (memento : Snapshot.t) : Py.M World unit :=
  set_state (Snapshot.state memento) ;;
  print ("Originator: My state has changed to: "
           ++ Py.fmt (Snapshot.state memento)) ;;
  restored_append memento.

(** [Originator.unrestore] of [ex001.py]: its body is [...], it does
    nothing, and no caller exists. *)
Definition Originator_unrestore (memento : Snapshot.t) : Py.M World unit :=
  Py.ret tt.

(** [Caretaker.backup]. *)
Definition Caretaker_backup (now : string) : Py.M World unit :=
  print (Py.newline ++ "Caretaker: Saving Originator's state...") ;;
  m <- Originator_save now ;;
  history_append m.

(** The [try] suite of [Caretaker.undo], with the originator's [restore]
    method looked up on the object at the call, as Python does. *)
Definition Caretaker_undo_try (restore : Snapshot.t -> Py.M World unit)
  : Py.M World unit :=
  memento <- history_pop ;;
  n <- Snapshot.name memento ;;
  print ("Caretaker: Restoring state to: " ++ n) ;;
  restore memento.

(** [Caretaker.undo], for an originator object with that [restore]. *)
Definition Caretaker_undo_with (restore : Snapshot.t -> Py.M World unit)
  : Py.M World unit :=
  h <- get_history ;;
  if Nat.eqb (List.length h) 0
  then Py.ret tt
  else Py.try_except (Caretaker_undo_try restore) (print "Cannot undo").

(** [Caretaker.undo] on an [Originator]. *)
Definition Caretaker_undo : Py.M World unit :=
  Caretaker_undo_with Originator_restore.

(** The [try] suite of [Caretaker.redo]. *)
Definition Caretaker_redo_try : Py.M World unit :=
  memento <- restored_pop ;;
  n <- Snapshot.name memento ;;
  print ("Caretaker: Unrestoring state to: " ++ n) ;;
  history_append memento ;;
  print ("Caretaker: Received memento: " ++ Snapshot.repr memento).

(** [Caretaker.redo]. *)
Definition Caretaker_redo : Py.M World unit :=
  Py.try_except Caretaker_redo_try (print "Cannot redo").

(** [Caretaker.show_history]. *)
Definition Caretaker_show_history : Py.M World unit :=
  print "Caretaker: Here's the list of mementos:" ;;
  h <- get_history ;;
  (fix each (l : list Snapshot.t) : Py.M World unit :=
     match l with
     | [] => Py.ret tt
     | memento :: rest =>
         n <- Snapshot.name memento ;; print n ;; each rest
     end) h.

(** One turn of the client's loop:
    [caretaker.backup(); originator.do_something()]. *)
Definition record (step : string * string) : Py.M World unit :=
  Caretaker_backup (fst step) ;; Originator_do_something (snd step).

Fixpoint record_all (steps : list (string * string)) : Py.M World unit :=
  match steps with
  | [] => Py.ret tt
  | step :: rest => record step ;; record_all rest
  end.

End Memento.

(** ** [command/ex003.py] *)

Module Command.

(** The concrete subclasses of [Command]. *)
Inductive CommandClass : Type :=
| CopyCommand
| CutCommand
| PasteCommand
| UndoCommand.

(** A command object.  Its [app] and [editor] attributes refer to the
    application and to its active editor, as in [create_ui]; [backup] is
    [None] until [save_backup] runs. *)
Record Command : Type := mkCommand { cls : CommandClass; backup : Py.optstr }.

(** [SomeCommand(self, self.active_editor)]. *)
Definition new (k : CommandClass) : Command :=
  {| cls := k; backup := None |}.

(** [text] receives [command.backup] in [Command.undo], so it ranges over
    [None] and [str] as [backup] does. *)
Record Editor : Type := mkEditor { text : Py.optstr }.

Record CommandHistory : Type := mkHistory { stack : list Command }.

(** [editors] is the one-element list holding [active_editor]. *)
Record Application : Type := mkApp {
  clipboard : string;
  active_editor : Editor;
  history : CommandHistory
}.

(** [Application()]. *)
Definition Application_init : Application :=
  {| clipboard := ""; active_editor := mkEditor (Some ""); history := mkHistory [] |}.

Definition get_text : Py.M Application Py.optstr :=
  fun a => (Py.Return (text (active_editor a)), a).

Definition set_text (v : Py.optstr) : Py.M Application unit :=
  fun a => (Py.Return tt, mkApp (clipboard a) (mkEditor v) (history a)).

Definition get_clipboard : Py.M Application string :=
  fun a => (Py.Return (clipboard a), a).

Definition set_clipboard (v : string) : Py.M Application unit :=
  fun a => (Py.Return tt, mkApp v (active_editor a) (history a)).

Definition get_stack : Py.M Application (list Command) :=
  fun a => (Py.Return (stack (history a)), a).

Definition set_stack (l : list Command) : Py.M Application unit :=
  fun a => (Py.Return tt, mkApp (clipboard a) (active_editor a) (mkHistory l)).

Local Open Scope py_scope.

(** [Editor.get_selection]. *)
Definition Editor_get_selection : Py.M Application string :=
  Py.ret "selected text".

(** [Editor.delete_selection]; [None] has no [replace]. *)
Definition Editor_delete_selection : Py.M Application unit :=
  t <- get_text ;;
  match t with
  | Some s => set_text (Some (Py.replace "selected text" "" s))
  | None => Py.raise Py.AttributeError
  end.

(** [Editor.replace_selection]; [None += str] is a [TypeError]. *)
Definition Editor_replace_selection (new_text : string)
  : Py.M Application unit :=
  t <- get_text ;;
  match t with
  | Some s => set_text (Some (s ++ new_text))
  | None => Py.raise Py.TypeError
  end.

(** [CommandHistory.push]. *)
Definition CommandHistory_push (command : Command) : Py.M Application unit :=
  l <- get_stack ;; set_stack (l ++ [command])%list.

(** [CommandHistory.pop]: [None] on an empty history. *)
Definition CommandHistory_pop : Py.M Application (option Command) :=
  l <- get_stack ;;
  match Py.list_pop l with
  | Some (c, l') => set_stack l' ;; Py.ret (Some c)
  | None => Py.ret None
  end.

(** [Command.save_backup]; returns the command with its new [backup]. *)
Definition Command_save_backup (self : Command) : Py.M Application Command :=
  t <- get_text ;; Py.ret (mkCommand (cls self) t).

(** [Command.undo]. *)
Definition Command_undo (self : Command) : Py.M Application unit :=
  set_text (backup self).

(** [Application.undo]. *)
Definition Application_undo : Py.M Application unit :=
  command <- CommandHistory_pop ;;
  match command with
  | Some c => Command_undo c
  | None => Py.ret tt
  end.

(** [execute] of each class: the returned flag and the command as the call
    leaves it. *)
Definition Command_execute (self : Command)
  : Py.M Application (bool * Command) :=
  match cls self with
  | CopyCommand =>
      sel <- Editor_get_selection ;;
      set_clipboard sel ;;
      Py.ret (false, self)
  | CutCommand =>
      self' <- Command_save_backup self ;;
      sel <- Editor_get_selection ;;
      set_clipboard sel ;;
      Editor_delete_selection ;;
      Py.ret (true, self')
  | PasteCommand =>
      self' <- Command_save_backup self ;;
      clip <- get_clipboard ;;
      Editor_replace_selection clip ;;
      Py.ret (true, self')
  | UndoCommand =>
      Application_undo ;;
      Py.ret (false, self)
  end.

(** [Application.execute_command]. *)
Definition Application_execute_command (command : Command)
  : Py.M Application unit :=
  r <- Command_execute command ;;
  if fst r then CommandHistory_push (snd r) else Py.ret tt.

(** [Application.create_ui]: the four buttons pressed in turn, each
    building its command anew. *)
Definition Application_create_ui : Py.M Application unit :=
  Application_execute_command (new CopyCommand) ;;
  Application_execute_command (new CutCommand) ;;
  Application_execute_command (new PasteCommand) ;;
  Application_execute_command (new UndoCommand).

(** What a client can ask of an application: press a button or call
    [undo] directly. *)
Inductive request : Type :=
| Press (k : CommandClass)
| CallUndo.

Definition serve (r : request) : Py.M Application unit :=
  match r with
  | Press k => Application_execute_command (new k)
  | CallUndo => Application_undo
  end.

Fixpoint serve_all (rs : list request) : Py.M Application unit :=
  match rs with
  | [] => Py.ret tt
  | r :: rest => serve r ;; serve_all rest
  end.

End Command.

(** ** Observations and auxiliary definitions used in the statements *)

Module Obs.

(** The originator's live state. *)
Definition state_of (w : Memento.World) : Py.optstr :=
  Memento.Originator._state (Memento.originator w).

(** The state the originator is in before each turn of the client's loop,
    from the initial state and the strings the turns draw. *)
Fixpoint pre_states (s0 : string) (rnds : list string) : list string :=
  match rnds with
  | [] => []
  | r :: rest => s0 :: pre_states r rest
  end.

(** The snapshots the client's loop leaves on the history. *)
Fixpoint snapshots (s0 : string) (steps : list (string * string))
  : list Memento.Snapshot.t :=
  match steps with
  | [] => []
  | step :: rest =>
      Memento.Snapshot.init (fst step) (Some s0) :: snapshots (snd step) rest
  end.

(** The editor's text. *)
Definition text_of (a : Command.Application) : Py.optstr :=
  Command.text (Command.active_editor a).

(** The classes whose [execute] returns [True]. *)
Definition mutating (k : Command.CommandClass) : bool :=
  match k with
  | Command.CutCommand | Command.PasteCommand => true
  | Command.CopyCommand | Command.UndoCommand => false
  end.

Definition is_str (v : Py.optstr) : bool :=
  match v with
  | Some _ => true
  | None => false
  end.

(** The editor holds a text and every command on the history holds a
    backup. *)
Definition backed_up (a : Command.Application) : bool :=
  is_str (text_of a)
  && forallb (fun c => is_str (Command.backup c))
             (Command.stack (Command.history a)).

End Obs.

(** ** Clients of the two examples *)

Module Client.

(** What the client of the memento example calls, as the script at the end
    of [ex001.py] does. *)
Inductive call : Type :=
| Backup (now : string)
| DoSomething (rnd : string)
| UndoCall
| RedoCall
| ShowHistory.

Definition perform (c : call) : Py.M Memento.World unit :=
  match c with
  | Backup now => Memento.Caretaker_backup now
  | DoSomething rnd => Memento.Originator_do_something rnd
  | UndoCall => Memento.Caretaker_undo
  | RedoCall => Memento.Caretaker_redo
  | ShowHistory => Memento.Caretaker_show_history
  end.

Fixpoint perform_all (cs : list call) : Py.M Memento.World unit :=
  match cs with
  | [] => Py.ret tt
  | c :: rest => Py.bind (perform c) (fun _ => perform_all rest)
  end.

(** The snapshot holds a state. *)
Definition has_state (m : Memento.Snapshot.t) : bool :=
  Obs.is_str (Memento.Snapshot.state m).

(** The originator has a state and so has every snapshot kept on the
    history or on the [restored] list. *)
Definition stateful (w : Memento.World) : bool :=
  Obs.is_str (Obs.state_of w)
  && forallb has_state (Memento.Caretaker._history (Memento.caretaker w))
  && forallb has_state (Memento.Originator.restored (Memento.originator w)).


(** [old in s] for a [str]. *)
Fixpoint occurs (old s : string) : bool :=
  match s with
  | EmptyString => prefix old s
  | String _ s' => prefix old s || occurs old s'
  end.

(** The depth the command history has after a request, from the depth it
    had before. *)
Definition depth_after (n : nat) (r : Command.request) : nat :=
  match r with
  | Command.Press Command.CutCommand => S n
  | Command.Press Command.PasteCommand => S n
  | Command.Press Command.CopyCommand => n
  | Command.Press Command.UndoCommand => Nat.pred n
  | Command.CallUndo => Nat.pred n
  end.

End Client.

(** ** Python lists *)

Section ListPop.
Context {A : Type}.

Lemma list_pop_snoc (l : list A) (x : A) :
  Py.list_pop (l ++ [x])%list = Some (x, l).
Proof.
  induction l as [|y l IH]; simpl.
  - reflexivity.
  - rewrite IH. reflexivity.
Qed.

Lemma list_pop_none (l : list A) : Py.list_pop l = None -> l = [].
Proof.
  destruct l as [|y l]; simpl; [reflexivity|].
  destruct (Py.list_pop l) as [[z r]|]; discriminate.
Qed.

Lemma list_pop_some (l r : list A) (x : A) :
  Py.list_pop l = Some (x, r) -> l = (r ++ [x])%list.
Proof.
  revert r x. induction l as [|y l IH]; simpl; intros r x H.
  - discriminate.
  - destruct (Py.list_pop l) as [[z r']|] eqn:E.
    + inversion H; subst. rewrite (IH r' x eq_refl). reflexivity.
    + inversion H; subst. rewrite (list_pop_none l E). reflexivity.
Qed.

Lemma length_snoc_eqb (l : list A) (x : A) :
  Nat.eqb (List.length (l ++ [x])%list) 0 = false.
Proof. rewrite length_app, Nat.add_comm. reflexivity. Qed.

Lemma last_cons_default (l : list A) (a d : A) :
  last (a :: l) d = last l a.
Proof.
  revert a d. induction l as [|b l IH]; intros a d; [reflexivity|].
  change (last (a :: b :: l) d) with (last (b :: l) d).
  rewrite (IH b d), (IH b a). reflexivity.
Qed.
End ListPop.

(** ** The memento example, step by step *)

Section MementoSteps.
Import Memento.
Local Open Scope py_scope.

Lemma undo_step st rs h s d out :
  exists out',
    Caretaker_undo
      (mkWorld (Originator.make st rs)
               (Caretaker.make (h ++ [Snapshot.make (Some s) d])%list) out)
    = (Py.Return tt,
       mkWorld (Originator.make (Some s) (rs ++ [Snapshot.make (Some s) d])%list)
               (Caretaker.make h) out').
Proof.
  unfold Caretaker_undo, Caretaker_undo_with, Caretaker_undo_try, history_pop,
    Py.bind, get_history, Py.try_except.
  cbn [caretaker Caretaker._history].
  rewrite length_snoc_eqb.
  cbn [caretaker Caretaker._history].
  rewrite list_pop_snoc. cbn. eexists. reflexivity.
Qed.

Lemma undo_empty o out :
  Caretaker_undo (mkWorld o (Caretaker.make []) out)
  = (Py.Return tt, mkWorld o (Caretaker.make []) out).
Proof. reflexivity. Qed.

Lemma backup_step s rs h out now :
  exists out',
    Caretaker_backup now
      (mkWorld (Originator.make (Some s) rs) (Caretaker.make h) out)
    = (Py.Return tt,
       mkWorld (Originator.make (Some s) rs)
               (Caretaker.make (h ++ [Snapshot.init now (Some s)])%list) out').
Proof. eexists. reflexivity. Qed.

Lemma record_step s rs h out step :
  exists out',
    record step (mkWorld (Originator.make (Some s) rs) (Caretaker.make h) out)
    = (Py.Return tt,
       mkWorld (Originator.make (Some (snd step)) rs)
               (Caretaker.make (h ++ [Snapshot.init (fst step) (Some s)])%list)
               out').
Proof. eexists. reflexivity. Qed.

Lemma snapshots_state s0 steps :
  map Snapshot.state (Obs.snapshots s0 steps)
  = map Some (Obs.pre_states s0 (map snd steps)).
Proof.
  revert s0. induction steps as [|step rest IH]; intros s0; simpl.
  - reflexivity.
  - rewrite IH. reflexivity.
Qed.

Lemma record_all_observed steps : forall s0 rs h out,
  exists out',
    Py.run_observed Obs.state_of (map record steps)
      (mkWorld (Originator.make (Some s0) rs) (Caretaker.make h) out)
    = (Py.Return (map Some (Obs.pre_states s0 (map snd steps))),
       mkWorld (Originator.make (Some (last (map snd steps) s0)) rs)
               (Caretaker.make (h ++ Obs.snapshots s0 steps)%list) out').
Proof.
  induction steps as [|step rest IH]; intros s0 rs h out.
  - exists out. cbn. rewrite app_nil_r. reflexivity.
  - destruct (record_step s0 rs h out step) as [out1 E1].
    destruct (IH (snd step) rs (h ++ [Snapshot.init (fst step) (Some s0)])%list out1)
      as [out2 E2].
    exists out2.
    cbn [map Py.run_observed Obs.pre_states Obs.snapshots].
    unfold Py.bind at 1. cbn [Py.get].
    unfold Py.bind at 1. rewrite E1.
    unfold Py.bind at 1. rewrite E2.
    cbn [Py.ret Obs.state_of originator Originator._state].
    rewrite <- app_assoc. cbn [app].
    rewrite last_cons_default. reflexivity.
Qed.

(** Undoing a whole run of snapshots: the states come back newest first. *)
Lemma undo_visit snaps :
  Forall (fun m => Obs.is_str (Snapshot.state m) = true) snaps ->
  forall st rs h out,
  exists out',
    Py.visit Obs.state_of Caretaker_undo (List.length snaps)
      (mkWorld (Originator.make st rs) (Caretaker.make (h ++ snaps)%list) out)
    = (Py.Return (rev (map Snapshot.state snaps)),
       mkWorld (Originator.make (hd st (map Snapshot.state snaps))
                                (rs ++ rev snaps)%list)
               (Caretaker.make h) out').
Proof.
  induction snaps as [|m l IH] using rev_ind; intros Hall st rs h out.
  - exists out. cbn. rewrite !app_nil_r. reflexivity.
  - apply Forall_app in Hall. destruct Hall as [Hl Hm].
    inversion Hm as [|? ? Hs _]; subst.
    destruct m as [[s|] d]; [clear Hs|discriminate Hs].
    destruct (undo_step st rs (h ++ l)%list s d out) as [out1 E1].
    destruct (IH Hl (Some s) (rs ++ [Snapshot.make (Some s) d])%list h out1)
      as [out2 E2].
    exists out2.
    rewrite length_app, Nat.add_comm. cbn [List.length Nat.add Py.visit].
    rewrite app_assoc.
    unfold Py.bind at 1. rewrite E1.
    unfold Py.bind at 1. cbn [Py.get].
    unfold Py.bind at 1. rewrite E2.
    cbn [Py.ret Obs.state_of originator Originator._state].
    rewrite map_app, !rev_app_distr, <- app_assoc. cbn [map rev app].
    destruct l; reflexivity.
Qed.

Lemma redo_step st rs h s d out :
  exists out',
    Caretaker_redo
      (mkWorld (Originator.make st (rs ++ [Snapshot.make (Some s) d])%list)
               (Caretaker.make h) out)
    = (Py.Return tt,
       mkWorld (Originator.make st rs)
               (Caretaker.make (h ++ [Snapshot.make (Some s) d])%list) out').
Proof.
  unfold Caretaker_redo, Caretaker_redo_try, restored_pop, Py.bind,
    get_restored, Py.try_except.
  cbn [originator Originator.restored].
  rewrite list_pop_snoc. cbn. eexists. reflexivity.
Qed.

Lemma redo_empty st c out :
  Caretaker_redo (mkWorld (Originator.make st []) c out)
  = (Py.Return tt, mkWorld (Originator.make st []) c (out ++ ["Cannot redo"])%list).
Proof. reflexivity. Qed.

End MementoSteps.

(** ** The command example, step by step *)

Section CommandSteps.
Import Command.
Local Open Scope py_scope.

Lemma press_cut clip t h :
  Application_execute_command (new CutCommand)
    (mkApp clip (mkEditor (Some t)) (mkHistory h))
  = (Py.Return tt,
     mkApp "selected text"
           (mkEditor (Some (Py.replace "selected text" "" t)))
           (mkHistory (h ++ [mkCommand CutCommand (Some t)])%list)).
Proof. reflexivity. Qed.

Lemma press_paste clip t h :
  Application_execute_command (new PasteCommand)
    (mkApp clip (mkEditor (Some t)) (mkHistory h))
  = (Py.Return tt,
     mkApp clip (mkEditor (Some (t ++ clip)))
           (mkHistory (h ++ [mkCommand PasteCommand (Some t)])%list)).
Proof. reflexivity. Qed.

Lemma press_copy b clip ed h :
  Application_execute_command (mkCommand CopyCommand b) (mkApp clip ed h)
  = (Py.Return tt, mkApp "selected text" ed h).
Proof. reflexivity. Qed.

Lemma app_undo_step clip ed h c :
  Application_undo (mkApp clip ed (mkHistory (h ++ [c])%list))
  = (Py.Return tt, mkApp clip (mkEditor (backup c)) (mkHistory h)).
Proof.
  unfold Application_undo, CommandHistory_pop, Py.bind, get_stack.
  cbn [history stack]. rewrite list_pop_snoc. reflexivity.
Qed.

Lemma app_undo_empty clip ed :
  Application_undo (mkApp clip ed (mkHistory []))
  = (Py.Return tt, mkApp clip ed (mkHistory [])).
Proof. reflexivity. Qed.

(** A button whose command mutates pushes a command backed up with the
    text it found. *)
Lemma press_mutating k clip t h :
  Obs.mutating k = true ->
  exists clip' t',
    Application_execute_command (new k)
      (mkApp clip (mkEditor (Some t)) (mkHistory h))
    = (Py.Return tt,
       mkApp clip' (mkEditor (Some t'))
             (mkHistory (h ++ [mkCommand k (Some t)])%list)).
Proof.
  destruct k; intros Hk; try discriminate Hk.
  - eexists _, _. apply press_cut.
  - eexists _, _. apply press_paste.
Qed.

Lemma presses_observed ks :
  forallb Obs.mutating ks = true ->
  forall clip t h,
  exists cmds clip' t',
    Py.run_observed Obs.text_of (map serve (map Press ks))
      (mkApp clip (mkEditor (Some t)) (mkHistory h))
    = (Py.Return (map backup cmds),
       mkApp clip' (mkEditor (Some t')) (mkHistory (h ++ cmds)%list))
    /\ List.length cmds = List.length ks
    /\ hd (Some t) (map backup cmds) = Some t.
Proof.
  induction ks as [|k ks IH]; intros Hks clip t h.
  - exists [], clip, t. cbn. rewrite app_nil_r. auto.
  - cbn [forallb] in Hks. apply andb_true_iff in Hks. destruct Hks as [Hk Hks].
    destruct (press_mutating k clip t h Hk) as (clip1 & t1 & E1).
    destruct (IH Hks clip1 t1 (h ++ [mkCommand k (Some t)])%list)
      as (cmds & clip2 & t2 & E2 & Hlen & _).
    exists (mkCommand k (Some t) :: cmds), clip2, t2.
    cbn [map Py.run_observed serve].
    unfold Py.bind at 1. cbn [Py.get].
    unfold Py.bind at 1. rewrite E1.
    unfold Py.bind at 1. rewrite E2.
    cbn [Py.ret Obs.text_of active_editor text backup hd List.length].
    rewrite <- app_assoc. cbn [app]. rewrite Hlen. auto.
Qed.

Lemma app_undo_visit cmds : forall clip st h,
  Py.visit Obs.text_of Application_undo (List.length cmds)
    (mkApp clip (mkEditor st) (mkHistory (h ++ cmds)%list))
  = (Py.Return (rev (map backup cmds)),
     mkApp clip (mkEditor (hd st (map backup cmds))) (mkHistory h)).
Proof.
  induction cmds as [|c l IH] using rev_ind; intros clip st h.
  - cbn. rewrite app_nil_r. reflexivity.
  - rewrite length_app, Nat.add_comm. cbn [List.length Nat.add Py.visit].
    rewrite app_assoc.
    unfold Py.bind at 1. rewrite app_undo_step.
    unfold Py.bind at 1. cbn [Py.get].
    unfold Py.bind at 1. rewrite IH.
    cbn [Py.ret Obs.text_of active_editor text].
    rewrite map_app, rev_app_distr. cbn [map rev app].
    destruct l; reflexivity.
Qed.

(** Pressing the undo button is calling [Application.undo]. *)
Lemma press_undo b a :
  Application_execute_command (mkCommand UndoCommand b) a = Application_undo a.
Proof.
  unfold Application_execute_command, Command_execute. cbn [cls].
  unfold Py.bind at 1 2.
  destruct (Application_undo a) as [[[]|e] a']; reflexivity.
Qed.

Lemma app_undo_backed_up a :
  Obs.backed_up a = true ->
  exists a', Application_undo a = (Py.Return tt, a') /\ Obs.backed_up a' = true.
Proof.
  destruct a as [clip [t] [h]]. unfold Obs.backed_up. cbn [Obs.text_of
    active_editor text history stack]. intros H.
  apply andb_true_iff in H. destruct H as [Ht Hh].
  unfold Application_undo, CommandHistory_pop, Py.bind, get_stack.
  cbn [history stack].
  destruct (Py.list_pop h) as [[c h']|] eqn:E.
  - apply list_pop_some in E. subst h.
    rewrite forallb_app in Hh. apply andb_true_iff in Hh.
    destruct Hh as [Hh' Hc]. cbn in Hc. rewrite andb_true_r in Hc.
    eexists. split; [reflexivity|]. cbn. now rewrite Hc, Hh'.
  - eexists. split; [reflexivity|]. cbn. now rewrite Ht, Hh.
Qed.

Lemma serve_backed_up r a :
  Obs.backed_up a = true ->
  exists a', serve r a = (Py.Return tt, a') /\ Obs.backed_up a' = true.
Proof.
  intros H. destruct r as [k|]; [|now apply app_undo_backed_up].
  destruct k; unfold serve, new.
  - destruct a as [clip ed h]. rewrite press_copy. eexists. split; [reflexivity|].
    exact H.
  - destruct a as [clip [[t|]] [h]]; [|discriminate H].
    rewrite press_cut. eexists. split; [reflexivity|].
    unfold Obs.backed_up in *. cbn in *. now rewrite forallb_app, H.
  - destruct a as [clip [[t|]] [h]]; [|discriminate H].
    rewrite press_paste. eexists. split; [reflexivity|].
    unfold Obs.backed_up in *. cbn in *. now rewrite forallb_app, H.
  - rewrite press_undo. now apply app_undo_backed_up.
Qed.

Lemma serve_all_backed_up rs : forall a,
  Obs.backed_up a = true ->
  exists a', serve_all rs a = (Py.Return tt, a') /\ Obs.backed_up a' = true.
Proof.
  induction rs as [|r rs IH]; intros a H.
  - exists a. split; [reflexivity | exact H].
  - destruct (serve_backed_up r a H) as (a1 & E1 & H1).
    destruct (IH a1 H1) as (a2 & E2 & H2).
    exists a2. split; [|exact H2].
    cbn [serve_all]. unfold Py.bind. rewrite E1. exact E2.
Qed.

Lemma is_str_some v : Obs.is_str v = true -> exists s, v = Some s.
Proof. destruct v as [s|]; [eauto | discriminate]. Qed.

End CommandSteps.

(** ** The example scripts, replayed *)

(** [app.create_ui()] on a fresh application: only the Cut stays on the
    history, the Paste having been undone. *)
Example create_ui_run :
  Command.Application_create_ui Command.Application_init
  = (Py.Return tt,
     Command.mkApp "selected text" (Command.mkEditor (Some ""))
       (Command.mkHistory [Command.mkCommand Command.CutCommand (Some "")])).
Proof. reflexivity. Qed.

(** Two turns of the memento client's loop, two [undo] and one [redo]. *)
Example memento_run :
  let script :=
    (Memento.record ("2024-05-01 10:00:00.000001", "abcde") ;;
     Memento.record ("2024-05-01 10:00:01.000001", "fghij") ;;
     Memento.Caretaker_undo ;; Memento.Caretaker_undo ;;
     Memento.Caretaker_redo)%py in
  let w := snd (script (Memento.start (Some "Super") [])) in
  Memento.originator w
  = Memento.Originator.make (Some "Super")
      [Memento.Snapshot.make (Some "abcde") "2024-05-01 10:00:01"]
  /\ Memento.caretaker w
     = Memento.Caretaker.make
         [Memento.Snapshot.make (Some "Super") "2024-05-01 10:00:00"].
Proof. split; reflexivity. Qed.

(** ** The properties *)

Section Properties.
Local Open Scope py_scope.

(** C1.  LIFO undo order.  In the memento example, after any number of turns
  of the client's loop (a backup pushed on the history, then a mutation),
  as many [undo] calls bring the originator back through the states it had
  before the last, the last but one, ... and the first mutation, in that
  order, and leave it in the state it had before the first one, with the
  history as it was.  In the command example the same holds for the
  editor's text after any number of Cut and Paste buttons and as many
  calls of [Application.undo]. *)
Theorem undo_lifo_order :
(forall (s0 : string) rs0 h0 out (steps : list (string * string)),
   exists w1 w2,
     Py.run_observed Obs.state_of (map Memento.record steps)
       (Memento.mkWorld (Memento.Originator.make (Some s0) rs0)
                        (Memento.Caretaker.make h0) out)
     = (Py.Return (map Some (Obs.pre_states s0 (map snd steps))), w1)
     /\ Py.visit Obs.state_of Memento.Caretaker_undo (List.length steps) w1
        = (Py.Return (rev (map Some (Obs.pre_states s0 (map snd steps)))), w2)
     /\ Obs.state_of w2 = Some s0
     /\ Memento.Caretaker._history (Memento.caretaker w2) = h0)
/\
(forall (t0 clip : string) h0 (ks : list Command.CommandClass),
   forallb Obs.mutating ks = true ->
   exists pre a1 a2,
     Py.run_observed Obs.text_of (map Command.serve (map Command.Press ks))
       (Command.mkApp clip (Command.mkEditor (Some t0)) (Command.mkHistory h0))
     = (Py.Return pre, a1)
     /\ Py.visit Obs.text_of Command.Application_undo (List.length ks) a1
        = (Py.Return (rev pre), a2)
     /\ List.length pre = List.length ks
     /\ hd (Some t0) pre = Some t0
     /\ Obs.text_of a2 = Some t0
     /\ Command.stack (Command.history a2) = h0).
Proof.
split.
- intros s0 rs0 h0 out steps.
  destruct (record_all_observed steps s0 rs0 h0 out) as [out1 E1].
  assert (Hall : Forall (fun m => Obs.is_str (Memento.Snapshot.state m) = true)
                        (Obs.snapshots s0 steps)).
  { clear. revert s0. induction steps as [|st rest IH]; intros s0; cbn.
    - constructor.
    - constructor; [reflexivity | apply IH]. }
  destruct (undo_visit (Obs.snapshots s0 steps) Hall
              (Some (last (map snd steps) s0)) rs0 h0 out1) as [out2 E2].
  assert (Hlen : List.length (Obs.snapshots s0 steps) = List.length steps).
  { clear. revert s0. induction steps as [|st rest IH]; intros s0; cbn;
      [reflexivity | now rewrite IH]. }
  rewrite Hlen, snapshots_state in E2.
  eexists _, _. split; [exact E1|]. split; [exact E2|].
  cbn. split; [|reflexivity].
  destruct steps as [|st rest]; reflexivity.
- intros t0 clip h0 ks Hks.
  destruct (presses_observed ks Hks clip t0 h0)
    as (cmds & clip1 & t1 & E1 & Hlen & Hhd).
  exists (map Command.backup cmds). eexists _, _.
  split; [exact E1|]. rewrite <- Hlen.
  split; [apply app_undo_visit|].
  rewrite length_map. split; [reflexivity|]. split; [exact Hhd|].
  cbn. split; [|reflexivity].
  destruct cmds as [|c l]; cbn in Hhd |- *; [|exact Hhd].
  destruct ks; [|discriminate Hlen].
  cbn in E1. inversion E1. reflexivity.
Qed.

Lemma undo_lifo_order_witness :
forallb Obs.mutating [Command.PasteCommand; Command.CutCommand] = true
/\ exists pre a1 a2,
     Py.run_observed Obs.text_of
       (map Command.serve
            (map Command.Press [Command.PasteCommand; Command.CutCommand]))
       (Command.mkApp "ab" (Command.mkEditor (Some "x")) (Command.mkHistory []))
     = (Py.Return pre, a1)
     /\ Py.visit Obs.text_of Command.Application_undo 2 a1
        = (Py.Return (rev pre), a2)
     /\ List.length pre = 2
     /\ hd (Some "x") pre = Some "x"
     /\ Obs.text_of a2 = Some "x"
     /\ Command.stack (Command.history a2) = [].
Proof.
split; [reflexivity|].
exact (proj2 undo_lifo_order "x" "ab" []
             [Command.PasteCommand; Command.CutCommand] eq_refl).
Defined.

(** C2, as stated, does not hold: [Caretaker.backup] never touches the
    originator's [restored] list, the redo stack.  After one recorded
    mutation, an [undo] and a second recorded mutation, the undone snapshot
    is still there, and [redo] puts it back on the history. *)
Lemma backup_keeps_redo_stack :
  exists w1 w2,
    (Memento.record ("2024-05-01 10:00:00.000001", "abcde") ;;
     Memento.Caretaker_undo ;;
     Memento.record ("2024-05-01 10:00:07.000001", "fghij"))
      (Memento.start (Some "Super-duper-super-puper-super.") [])
    = (Py.Return tt, w1)
    /\ Memento.Originator.restored (Memento.originator w1)
       = [Memento.Snapshot.make (Some "Super-duper-super-puper-super.")
                                "2024-05-01 10:00:00"]
    /\ Memento.Originator.restored (Memento.originator w1) <> []
    /\ Memento.Caretaker_redo w1 = (Py.Return tt, w2)
    /\ Memento.Caretaker._history (Memento.caretaker w2)
       = [Memento.Snapshot.make (Some "Super-duper-super-puper-super.")
                                "2024-05-01 10:00:07";
          Memento.Snapshot.make (Some "Super-duper-super-puper-super.")
                                "2024-05-01 10:00:00"].
Proof.
  eexists _, _. split; [vm_compute; reflexivity|].
  split; [reflexivity|]. split; [discriminate|].
  split; [vm_compute; reflexivity|]. reflexivity.
Qed.

(** C2, amended.  [Caretaker.backup] leaves the originator's [restored] list
    as it finds it, whether it returns or raises; on an originator that has
    a state it returns, having appended a snapshot of that state to the
    history.  So after an [undo] and a [backup], [redo] still moves the
    undone snapshot back onto the history, on top of the new one. *)
Theorem backup_leaves_restored :
  (forall now w,
     Memento.Originator.restored (Memento.originator (snd (Memento.Caretaker_backup now w)))
     = Memento.Originator.restored (Memento.originator w))
  /\
  (forall now (s : string) rs h out,
     exists out',
       Memento.Caretaker_backup now
         (Memento.mkWorld (Memento.Originator.make (Some s) rs)
                          (Memento.Caretaker.make h) out)
       = (Py.Return tt,
          Memento.mkWorld (Memento.Originator.make (Some s) rs)
            (Memento.Caretaker.make (h ++ [Memento.Snapshot.init now (Some s)])%list)
            out'))
  /\
  (forall now st rs h (s d : string) out,
     exists out',
       (Memento.Caretaker_undo ;; Memento.Caretaker_backup now ;;
        Memento.Caretaker_redo)
         (Memento.mkWorld (Memento.Originator.make st rs)
            (Memento.Caretaker.make (h ++ [Memento.Snapshot.make (Some s) d])%list)
            out)
       = (Py.Return tt,
          Memento.mkWorld (Memento.Originator.make (Some s) rs)
            (Memento.Caretaker.make
               (h ++ [Memento.Snapshot.init now (Some s);
                      Memento.Snapshot.make (Some s) d])%list)
            out')).
Proof.
  split; [|split].
  - intros now [[st rs] [h] out]. destruct st; reflexivity.
  - intros. apply backup_step.
  - intros now st rs h s d out.
    destruct (undo_step st rs h s d out) as [out1 E1].
    destruct (backup_step s (rs ++ [Memento.Snapshot.make (Some s) d])%list h out1 now)
      as [out2 E2].
    destruct (redo_step (Some s) rs (h ++ [Memento.Snapshot.init now (Some s)])%list
                s d out2) as [out3 E3].
    exists out3.
    unfold Py.bind at 1. rewrite E1.
    unfold Py.bind at 1. rewrite E2.
    rewrite E3, <- app_assoc. reflexivity.
Qed.

(** C3 on the code: one recorded mutation, then [undo] and at once [redo].
    Before the [undo] the originator is in the state the mutation gave it;
    after the [redo] it is still in the state the [undo] restored. *)
Lemma redo_after_undo_keeps_undone_state :
  exists w1 w2,
    Memento.record ("2024-05-01 10:00:00.000001", "abcde")
      (Memento.start (Some "Super-duper-super-puper-super.") [])
    = (Py.Return tt, w1)
    /\ Obs.state_of w1 = Some "abcde"
    /\ (Memento.Caretaker_undo ;; Memento.Caretaker_redo) w1 = (Py.Return tt, w2)
    /\ Obs.state_of w2 = Some "Super-duper-super-puper-super.".
Proof.
  eexists _, _. split; [vm_compute; reflexivity|].
  split; [reflexivity|]. split; [vm_compute; reflexivity|]. reflexivity.
Qed.

(** C4.  [Caretaker.redo] always returns and leaves the originator's [_state]
    as it was; when the [restored] list ends with a snapshot of a state, that
    snapshot moves from there to the end of the history. *)
Theorem redo_keeps_state :
  (forall w,
     exists w',
       Memento.Caretaker_redo w = (Py.Return tt, w')
       /\ Memento.Originator._state (Memento.originator w')
          = Memento.Originator._state (Memento.originator w))
  /\
  (forall st rs h (s d : string) out,
     exists out',
       Memento.Caretaker_redo
         (Memento.mkWorld
            (Memento.Originator.make st (rs ++ [Memento.Snapshot.make (Some s) d])%list)
            (Memento.Caretaker.make h) out)
       = (Py.Return tt,
          Memento.mkWorld (Memento.Originator.make st rs)
            (Memento.Caretaker.make (h ++ [Memento.Snapshot.make (Some s) d])%list)
            out')).
Proof.
  split.
  - intros [[st rs] [h] out].
    unfold Memento.Caretaker_redo, Memento.Caretaker_redo_try,
      Memento.restored_pop, Py.bind, Memento.get_restored, Py.try_except.
    cbn [Memento.originator Memento.Originator.restored].
    destruct (Py.list_pop rs) as [[[[s|] d] rs']|]; cbn;
      (eexists; split; reflexivity).
  - intros. apply redo_step.
Qed.

(** C5, as stated, does not hold: [UndoCommand.execute] returns [False]
    and yet running it through [execute_command] pops the history.  Here the
    application has had its Cut button pressed once. *)
Lemma undo_command_pops_history :
  exists a a',
    Command.serve (Command.Press Command.CutCommand) Command.Application_init
    = (Py.Return tt, a)
    /\ Command.stack (Command.history a)
       = [Command.mkCommand Command.CutCommand (Some "")]
    /\ Command.Command_execute (Command.new Command.UndoCommand) a
       = (Py.Return (false, Command.new Command.UndoCommand), a')
    /\ Command.Application_execute_command (Command.new Command.UndoCommand) a
       = (Py.Return tt, a')
    /\ Command.stack (Command.history a') = []
    /\ Command.stack (Command.history a') <> Command.stack (Command.history a).
Proof.
  eexists _, _. split; [vm_compute; reflexivity|].
  split; [reflexivity|]. split; [vm_compute; reflexivity|].
  split; [reflexivity|]. split; [reflexivity|]. discriminate.
Qed.

(** C5, amended.  A command whose [execute] returns [False] is not pushed:
    [execute_command] leaves the application exactly as [execute] left it.
    For a [CopyCommand] that means the history and the text are unchanged
    and only the clipboard is set; for an [UndoCommand] it means what
    [Application.undo] does, the most recent command popped and undone. *)
Theorem unrecorded_when_execute_false :
  (forall c a c' a',
     Command.Command_execute c a = (Py.Return (false, c'), a') ->
     Command.Application_execute_command c a = (Py.Return tt, a'))
  /\
  (forall b clip ed h,
     Command.Application_execute_command
       (Command.mkCommand Command.CopyCommand b) (Command.mkApp clip ed h)
     = (Py.Return tt, Command.mkApp "selected text" ed h))
  /\
  (forall b a,
     Command.Application_execute_command
       (Command.mkCommand Command.UndoCommand b) a
     = Command.Application_undo a).
Proof.
  split; [|split].
  - intros c a c' a' H. unfold Command.Application_execute_command, Py.bind.
    rewrite H. reflexivity.
  - intros. apply press_copy.
  - intros. apply press_undo.
Qed.

Lemma unrecorded_when_execute_false_witness :
  Command.Application_execute_command (Command.new Command.CopyCommand)
    Command.Application_init
  = (Py.Return tt,
     Command.mkApp "selected text" (Command.mkEditor (Some ""))
                   (Command.mkHistory [])).
Proof.
  exact (proj1 unrecorded_when_execute_false
           (Command.new Command.CopyCommand) Command.Application_init
           (Command.new Command.CopyCommand)
           (Command.mkApp "selected text" (Command.mkEditor (Some ""))
                          (Command.mkHistory []))
           eq_refl).
Defined.

(** C6, as stated, does not hold: on a fresh application, whose text does
    not contain the selection, [CutCommand.execute] returns [True] although
    the text is the same before and after, and [execute_command] records the
    command. *)
Lemma cut_without_selection_is_recorded :
  exists a',
    Command.Command_execute (Command.new Command.CutCommand)
      Command.Application_init
    = (Py.Return (true, Command.mkCommand Command.CutCommand (Some "")), a')
    /\ Obs.text_of a' = Obs.text_of Command.Application_init
    /\ Command.active_editor a' = Command.active_editor Command.Application_init
    /\ exists a'',
         Command.Application_execute_command (Command.new Command.CutCommand)
           Command.Application_init
         = (Py.Return tt, a'')
         /\ Command.stack (Command.history a'')
            = [Command.mkCommand Command.CutCommand (Some "")].
Proof.
  eexists. split; [vm_compute; reflexivity|].
  split; [reflexivity|]. split; [reflexivity|].
  eexists. split; [vm_compute; reflexivity|]. reflexivity.
Qed.

(** C6, amended.  The flag [execute] returns depends on the class of the
    command alone: [True] for Cut and Paste, [False] for Copy and Undo.
    Among Copy, Cut and Paste a [False] does mean that the editor's text and
    the history are unchanged; a [True] says nothing about the text. *)
Theorem execute_flag_by_class :
  forall c a r c' a',
    Command.Command_execute c a = (Py.Return (r, c'), a') ->
    r = Obs.mutating (Command.cls c)
    /\ (Command.cls c <> Command.UndoCommand -> r = false ->
        Command.active_editor a' = Command.active_editor a
        /\ Command.history a' = Command.history a).
Proof.
  intros [k b] [clip [t] h] r c' a' H.
  unfold Command.Command_execute in H. cbn [Command.cls] in *.
  destruct k.
  - cbn in H. inversion H; subst. split; [reflexivity|]. intros _ _.
    split; reflexivity.
  - destruct t as [t|]; cbn in H; inversion H; subst.
    split; [reflexivity|]. intros _ Hr. discriminate Hr.
  - destruct t as [t|]; cbn in H; inversion H; subst.
    split; [reflexivity|]. intros _ Hr. discriminate Hr.
  - split.
    + unfold Py.bind in H.
      destruct (Command.Application_undo _) as [[[]|e] a1]; cbn in H;
        inversion H; reflexivity.
    + intros Hk. now elim Hk.
Qed.

Lemma execute_flag_by_class_witness :
  false = Obs.mutating Command.CopyCommand
  /\ (Command.CopyCommand <> Command.UndoCommand -> false = false ->
      Command.active_editor
        (Command.mkApp "selected text" (Command.mkEditor (Some ""))
                       (Command.mkHistory []))
      = Command.active_editor Command.Application_init
      /\ Command.history
           (Command.mkApp "selected text" (Command.mkEditor (Some ""))
                          (Command.mkHistory []))
         = Command.history Command.Application_init).
Proof.
  exact (execute_flag_by_class
           (Command.new Command.CopyCommand) Command.Application_init
           false (Command.new Command.CopyCommand)
           (Command.mkApp "selected text" (Command.mkEditor (Some ""))
                          (Command.mkHistory []))
           eq_refl).
Defined.

(** C7.  On an empty history any number of [Caretaker.undo] calls return and
    change nothing at all; on an empty [restored] list any number of
    [Caretaker.redo] calls return, having only printed that many lines; on an
    empty command history any number of [Application.undo] calls return and
    change nothing at all. *)
Theorem empty_stack_noop :
  (forall n o out,
     Py.repeat_call Memento.Caretaker_undo n
       (Memento.mkWorld o (Memento.Caretaker.make []) out)
     = (Py.Return tt, Memento.mkWorld o (Memento.Caretaker.make []) out))
  /\
  (forall n st c out,
     Py.repeat_call Memento.Caretaker_redo n
       (Memento.mkWorld (Memento.Originator.make st []) c out)
     = (Py.Return tt,
        Memento.mkWorld (Memento.Originator.make st []) c
                        (out ++ repeat "Cannot redo" n)%list))
  /\
  (forall n clip ed,
     Py.repeat_call Command.Application_undo n
       (Command.mkApp clip ed (Command.mkHistory []))
     = (Py.Return tt, Command.mkApp clip ed (Command.mkHistory []))).
Proof.
  split; [|split].
  - induction n as [|n IH]; intros o out; [reflexivity|].
    cbn [Py.repeat_call]. unfold Py.bind. rewrite undo_empty. apply IH.
  - induction n as [|n IH]; intros st c out.
    + cbn. rewrite app_nil_r. reflexivity.
    + cbn [Py.repeat_call]. unfold Py.bind. rewrite redo_empty, IH.
      rewrite <- app_assoc. reflexivity.
  - induction n as [|n IH]; intros clip ed; [reflexivity|].
    cbn [Py.repeat_call]. unfold Py.bind. rewrite app_undo_empty. apply IH.
Qed.

(** C8.  [Originator.save] raises exactly when [_state] is [None]; otherwise
    it returns, without changing anything, a snapshot holding the current
    state (and the first 19 characters of the time). *)
Theorem save_raises_iff_no_state :
  forall now w,
    ((exists e, fst (Memento.Originator_save now w) = Py.Raise e)
     <-> Memento.Originator._state (Memento.originator w) = None)
    /\ (forall s,
          Memento.Originator._state (Memento.originator w) = Some s ->
          Memento.Originator_save now w
          = (Py.Return (Memento.Snapshot.make (Some s) (Py.slice 0 19 now)), w))
    /\ (forall m,
          fst (Memento.Originator_save now w) = Py.Return m ->
          Memento.Snapshot.state m
          = Memento.Originator._state (Memento.originator w))
    /\ snd (Memento.Originator_save now w) = w.
Proof.
  intros now [[st rs] c out].
  unfold Memento.Originator_save, Py.bind, Memento.get_state.
  cbn [Memento.originator Memento.Originator._state].
  destruct st as [s|]; cbn.
  - split; [split; [intros [e He]; discriminate He | discriminate]|].
    split; [intros s' Hs; inversion Hs; reflexivity|].
    split; [intros m Hm; inversion Hm; reflexivity | reflexivity].
  - split; [split; [reflexivity | intros _; eexists; reflexivity]|].
    split; [discriminate|].
    split; [intros m Hm; discriminate Hm | reflexivity].
Qed.

Lemma save_raises_iff_no_state_witness :
  Memento.Originator_save "2024-05-01 10:00:00.000001"
    (Memento.start (Some "Super-duper-super-puper-super.") [])
  = (Py.Return (Memento.Snapshot.make (Some "Super-duper-super-puper-super.")
                  (Py.slice 0 19 "2024-05-01 10:00:00.000001")),
     Memento.start (Some "Super-duper-super-puper-super.") []).
Proof.
  exact (proj1 (proj2 (save_raises_iff_no_state "2024-05-01 10:00:00.000001"
                         (Memento.start (Some "Super-duper-super-puper-super.") [])))
           "Super-duper-super-puper-super." eq_refl).
Defined.

(** C9, as stated, does not hold: [Caretaker.undo] runs [restore] inside
    [try ... except Exception], so an error raised there is caught, the
    caretaker prints a line and [undo] returns.  First with an originator
    object whose [restore] raises, then with the [Originator] of the example
    and a snapshot on the history whose [name] raises. *)
Lemma undo_swallows_errors :
  (let failing := fun _ : Memento.Snapshot.t =>
                    @Py.raise Memento.World unit Py.AttributeError in
   let w := Memento.mkWorld
              (Memento.Originator.make (Some "abcde") [])
              (Memento.Caretaker.make
                 [Memento.Snapshot.make (Some "Super") "2024-05-01 10:00:00"])
              [] in
   fst (Memento.Caretaker_undo_try failing w) = Py.Raise Py.AttributeError
   /\ Memento.Caretaker_undo_with failing w
      = (Py.Return tt,
         Memento.mkWorld
           (Memento.Originator.make (Some "abcde") [])
           (Memento.Caretaker.make [])
           ["Caretaker: Restoring state to: 2024-05-01 10:00:00 / (Super...)";
            "Cannot undo"]))
  /\
  (let w := Memento.mkWorld
              (Memento.Originator.make (Some "abcde") [])
              (Memento.Caretaker.make
                 [Memento.Snapshot.make None "2024-05-01 10:00:00"])
              [] in
   fst (Memento.Caretaker_undo_try Memento.Originator_restore w)
   = Py.Raise Py.TypeError
   /\ Memento.Caretaker_undo w
      = (Py.Return tt,
         Memento.mkWorld
           (Memento.Originator.make (Some "abcde") [])
           (Memento.Caretaker.make [])
           ["Cannot undo"])).
Proof. repeat split; vm_compute; reflexivity. Qed.

(** C9, amended.  An error raised by [Originator.save] during
    [Caretaker.backup] escapes from [backup] unchanged.  [Caretaker.undo]
    and [Caretaker.redo] never raise, whatever the originator's [restore]
    does: when the [try] suite of [undo] raises, everything it did up to
    there stays done, the caretaker prints "Cannot undo" and [undo]
    returns. *)
Theorem undo_catches_backup_propagates :
  (forall now w e,
     fst (Memento.Originator_save now w) = Py.Raise e ->
     fst (Memento.Caretaker_backup now w) = Py.Raise e)
  /\
  (forall restore w, fst (Memento.Caretaker_undo_with restore w) = Py.Return tt)
  /\
  (forall w, fst (Memento.Caretaker_redo w) = Py.Return tt)
  /\
  (forall restore w e w',
     Memento.Caretaker._history (Memento.caretaker w) <> [] ->
     Memento.Caretaker_undo_try restore w = (Py.Raise e, w') ->
     Memento.Caretaker_undo_with restore w = Memento.print "Cannot undo" w').
Proof.
  split; [|split; [|split]].
  - intros now [[[s|] rs] c out] e H; cbn in H |- *.
    + discriminate H.
    + inversion H. reflexivity.
  - intros restore w.
    unfold Memento.Caretaker_undo_with, Py.bind, Memento.get_history.
    destruct (Nat.eqb _ 0); [reflexivity|].
    unfold Py.try_except.
    destruct (Memento.Caretaker_undo_try restore w) as [[[]|e] w'];
      reflexivity.
  - intros w. unfold Memento.Caretaker_redo, Py.try_except.
    destruct (Memento.Caretaker_redo_try w) as [[[]|e] w']; reflexivity.
  - intros restore w e w' Hh H.
    unfold Memento.Caretaker_undo_with, Py.bind, Memento.get_history.
    destruct (Memento.Caretaker._history (Memento.caretaker w)) as [|m h];
      [now elim Hh|].
    cbn [List.length Nat.eqb]. unfold Py.try_except. rewrite H. reflexivity.
Qed.

Lemma undo_catches_backup_propagates_witness :
  fst (Memento.Caretaker_backup "2024-05-01 10:00:00.000001"
         (Memento.start None []))
  = Py.Raise Py.AttributeError.
Proof.
  exact (proj1 undo_catches_backup_propagates "2024-05-01 10:00:00.000001"
           (Memento.start None []) Py.AttributeError eq_refl).
Defined.

(** C10.  Whatever buttons are pressed and however often
    [Application.undo] is called on a fresh application, no call raises,
    the editor's text is a string, every command on the history holds a
    string as its backup, and one more [Application.undo] returns and
    leaves a string as the text. *)
Theorem history_commands_backed_up :
  forall rs : list Command.request,
    exists a,
      Command.serve_all rs Command.Application_init = (Py.Return tt, a)
      /\ (exists t, Obs.text_of a = Some t)
      /\ Forall (fun c => exists b, Command.backup c = Some b)
                (Command.stack (Command.history a))
      /\ exists a' t',
           Command.Application_undo a = (Py.Return tt, a')
           /\ Obs.text_of a' = Some t'.
Proof.
  intros rs.
  destruct (serve_all_backed_up rs Command.Application_init eq_refl)
    as (a & E & H).
  destruct (app_undo_backed_up a H) as (a' & E' & H').
  exists a. split; [exact E|].
  unfold Obs.backed_up in H, H'.
  apply andb_true_iff in H. destruct H as [Ht Hh].
  apply andb_true_iff in H'. destruct H' as [Ht' _].
  split; [now apply is_str_some|]. split.
  - apply Forall_forall. intros c Hc. apply is_str_some.
    rewrite forallb_forall in Hh. now apply Hh.
  - destruct (is_str_some _ Ht') as [t' Et'].
    exists a', t'. split; [exact E' | exact Et'].
Qed.

End Properties.

(** ** Repeated calls *)

Section Repeat.
Context {S : Type}.

Lemma repeat_call_add (m : Py.M S unit) (a b : nat) (s : S) :
  Py.repeat_call m (a + b) s
  = Py.bind (Py.repeat_call m a) (fun _ => Py.repeat_call m b) s.
Proof.
  revert s. induction a as [|a IH]; intros s.
  - reflexivity.
  - cbn [Nat.add Py.repeat_call]. unfold Py.bind in IH |- *.
    destruct (m s) as [[[]|e] s1]; [|reflexivity].
    apply IH.
Qed.

Lemma visit_repeat_call {A} (obs : S -> A) (m : Py.M S unit) (n : nat) :
  forall s xs s',
    Py.visit obs m n s = (Py.Return xs, s') ->
    Py.repeat_call m n s = (Py.Return tt, s').
Proof.
  induction n as [|n IH]; intros s xs s' H.
  - cbn in H |- *. inversion H. reflexivity.
  - cbn [Py.visit Py.repeat_call] in H |- *. unfold Py.bind in H |- *.
    destruct (m s) as [[[]|e] s1]; [|discriminate H].
    cbn [Py.get] in H.
    destruct (Py.visit obs m n s1) as [[ys|e] s2] eqn:E; [|discriminate H].
    cbn in H. inversion H; subst. exact (IH s1 ys s' E).
Qed.

End Repeat.

(** ** More on the memento example *)

Section MementoMore.
Import Memento.
Local Open Scope py_scope.

Lemma has_state_some m :
  Client.has_state m = true -> exists s d, m = Snapshot.make (Some s) d.
Proof.
  destruct m as [[s|] d]; [eauto | discriminate].
Qed.

Lemma undo_repeat l :
  forallb Client.has_state l = true ->
  forall st rs h out,
  exists out',
    Py.repeat_call Caretaker_undo (List.length l)
      (mkWorld (Originator.make st rs) (Caretaker.make (h ++ l)%list) out)
    = (Py.Return tt,
       mkWorld (Originator.make (hd st (map Snapshot.state l)) (rs ++ rev l)%list)
               (Caretaker.make h) out').
Proof.
  intros Hl st rs h out.
  assert (Hall : Forall (fun m => Obs.is_str (Snapshot.state m) = true) l).
  { apply Forall_forall. intros m Hm. rewrite forallb_forall in Hl.
    exact (Hl m Hm). }
  destruct (undo_visit l Hall st rs h out) as [out' E].
  exists out'. exact (visit_repeat_call _ _ _ _ _ _ E).
Qed.

Lemma redo_repeat l :
  forallb Client.has_state l = true ->
  forall st rs h out,
  exists out',
    Py.repeat_call Caretaker_redo (List.length l)
      (mkWorld (Originator.make st (rs ++ l)%list) (Caretaker.make h) out)
    = (Py.Return tt,
       mkWorld (Originator.make st rs) (Caretaker.make (h ++ rev l)%list) out').
Proof.
  induction l as [|m l IH] using rev_ind; intros Hl st rs h out.
  - exists out. cbn. rewrite !app_nil_r. reflexivity.
  - rewrite forallb_app in Hl. apply andb_true_iff in Hl.
    destruct Hl as [Hl Hm]. cbn in Hm. rewrite andb_true_r in Hm.
    destruct (has_state_some m Hm) as (s & d & ->).
    destruct (redo_step st (rs ++ l)%list h s d out) as [out1 E1].
    destruct (IH Hl st rs (h ++ [Snapshot.make (Some s) d])%list out1)
      as [out2 E2].
    exists out2.
    rewrite length_app, Nat.add_comm. cbn [List.length Nat.add Py.repeat_call].
    rewrite app_assoc. unfold Py.bind. rewrite E1, E2.
    rewrite rev_app_distr, <- app_assoc. reflexivity.
Qed.

Lemma undo_stateless st rs h d out :
  Caretaker_undo
    (mkWorld (Originator.make st rs)
             (Caretaker.make (h ++ [Snapshot.make None d])%list) out)
  = (Py.Return tt,
     mkWorld (Originator.make st rs) (Caretaker.make h)
             (out ++ ["Cannot undo"])%list).
Proof.
  unfold Caretaker_undo, Caretaker_undo_with, Caretaker_undo_try, history_pop,
    Py.bind, get_history, Py.try_except.
  cbn [caretaker Caretaker._history].
  rewrite length_snoc_eqb.
  cbn [caretaker Caretaker._history].
  rewrite list_pop_snoc. reflexivity.
Qed.

Lemma redo_stateless st rs h d out :
  Caretaker_redo
    (mkWorld (Originator.make st (rs ++ [Snapshot.make None d])%list)
             (Caretaker.make h) out)
  = (Py.Return tt,
     mkWorld (Originator.make st rs) (Caretaker.make h)
             (out ++ ["Cannot redo"])%list).
Proof.
  unfold Caretaker_redo, Caretaker_redo_try, restored_pop, Py.bind,
    get_restored, Py.try_except.
  cbn [originator Originator.restored].
  rewrite list_pop_snoc. reflexivity.
Qed.

(** The loop of [show_history] over snapshots that hold a state. *)
Lemma show_history_stateful o h out :
  forallb Client.has_state h = true ->
  exists lines,
    Caretaker_show_history (mkWorld o (Caretaker.make h) out)
    = (Py.Return tt,
       mkWorld o (Caretaker.make h)
         (out ++ "Caretaker: Here's the list of mementos:" :: lines)%list)
    /\ List.length lines = List.length h.
Proof.
  intros Hh. unfold Caretaker_show_history.
  unfold Py.bind at 1. cbn [print originator caretaker stdout].
  unfold Py.bind at 1. cbn [get_history caretaker Caretaker._history].
  set (each := fix each (l : list Snapshot.t) : Py.M World unit := _).
  assert (G : forall l out1,
             forallb Client.has_state l = true ->
             exists lines,
               each l (mkWorld o (Caretaker.make h) out1)
               = (Py.Return tt, mkWorld o (Caretaker.make h) (out1 ++ lines)%list)
               /\ List.length lines = List.length l).
  { clear. induction l as [|m l IH]; intros out1 Hl.
    - exists []. cbn. rewrite app_nil_r. auto.
    - cbn [forallb] in Hl. apply andb_true_iff in Hl. destruct Hl as [Hm Hl].
      destruct (has_state_some m Hm) as (s & d & ->).
      destruct (IH (out1 ++ [(d ++ " / (" ++ Py.slice 0 9 s ++ "...)")%string])%list Hl)
        as (lines & E & Hlen).
      exists ((d ++ " / (" ++ Py.slice 0 9 s ++ "...)")%string :: lines).
      split; [|cbn; now rewrite Hlen].
      cbn - [Py.slice]. cbn - [Py.slice] in E. rewrite E.
      rewrite <- app_assoc. reflexivity. }
  destruct (G h (out ++ ["Caretaker: Here's the list of mementos:"])%list Hh)
    as (lines & E & Hlen).
  exists lines. split; [|exact Hlen].
  rewrite <- app_assoc in E. exact E.
Qed.

End MementoMore.

Section MementoInvariant.
Import Memento.
Local Open Scope py_scope.

Lemma stateful_make st rs h out :
  Client.stateful (mkWorld (Originator.make st rs) (Caretaker.make h) out)
  = Obs.is_str st && forallb Client.has_state h && forallb Client.has_state rs.
Proof. reflexivity. Qed.

Lemma forallb_snoc {A} (f : A -> bool) l x :
  forallb f (l ++ [x])%list = forallb f l && f x.
Proof. rewrite forallb_app. cbn. now rewrite andb_true_r. Qed.

Lemma perform_stateful c w :
  Client.stateful w = true ->
  exists w', Client.perform c w = (Py.Return tt, w') /\ Client.stateful w' = true.
Proof.
  destruct w as [[st rs] [h] out]. rewrite stateful_make. intros H.
  apply andb_true_iff in H. destruct H as [H Hrs].
  apply andb_true_iff in H. destruct H as [Hst Hh].
  destruct st as [s|]; [clear Hst | discriminate Hst].
  destruct c as [now|rnd| | |]; cbn [Client.perform].
  - destruct (backup_step s rs h out now) as [out' E].
    eexists. split; [exact E|].
    rewrite stateful_make, forallb_snoc, Hh, Hrs. reflexivity.
  - exists (mkWorld (Originator.make (Some rnd) rs) (Caretaker.make h)
              (out ++ ["Originator: I'm doing something important.";
                       ("Originator: and my state has changed to: " ++ rnd)%string])%list).
    split; [|rewrite stateful_make, Hh, Hrs; reflexivity].
    unfold Originator_do_something, Py.bind, print, set_state.
    cbn [originator caretaker stdout Originator.restored].
    rewrite <- app_assoc. reflexivity.
  - destruct (Py.list_pop h) as [[m h']|] eqn:E.
    + apply list_pop_some in E. subst h.
      rewrite forallb_snoc in Hh. apply andb_true_iff in Hh.
      destruct Hh as [Hh' Hm].
      destruct (has_state_some m Hm) as (s' & d & ->).
      destruct (undo_step (Some s) rs h' s' d out) as [out' E'].
      eexists. split; [exact E'|].
      rewrite stateful_make, forallb_snoc, Hh', Hrs. reflexivity.
    + apply list_pop_none in E. subst h. rewrite undo_empty.
      eexists. split; [reflexivity|]. rewrite stateful_make, Hrs. reflexivity.
  - destruct (Py.list_pop rs) as [[m rs']|] eqn:E.
    + apply list_pop_some in E. subst rs.
      rewrite forallb_snoc in Hrs. apply andb_true_iff in Hrs.
      destruct Hrs as [Hrs' Hm].
      destruct (has_state_some m Hm) as (s' & d & ->).
      destruct (redo_step (Some s) rs' h s' d out) as [out' E'].
      eexists. split; [exact E'|].
      rewrite stateful_make, forallb_snoc, Hh, Hrs'. reflexivity.
    + apply list_pop_none in E. subst rs. rewrite redo_empty.
      eexists. split; [reflexivity|]. rewrite stateful_make, Hh. reflexivity.
  - destruct (show_history_stateful (Originator.make (Some s) rs) h out Hh)
      as (lines & E & _).
    eexists. split; [exact E|]. rewrite stateful_make, Hh, Hrs. reflexivity.
Qed.

Lemma perform_all_stateful cs : forall w,
  Client.stateful w = true ->
  exists w',
    Client.perform_all cs w = (Py.Return tt, w') /\ Client.stateful w' = true.
Proof.
  induction cs as [|c cs IH]; intros w H.
  - exists w. split; [reflexivity | exact H].
  - destruct (perform_stateful c w H) as (w1 & E1 & H1).
    destruct (IH w1 H1) as (w2 & E2 & H2).
    exists w2. split; [|exact H2].
    cbn [Client.perform_all]. unfold Py.bind. rewrite E1. exact E2.
Qed.

Lemma undo_try_stateful w :
  Client.stateful w = true ->
  fst (Caretaker_undo_try Originator_restore w) = Py.Return tt
  \/ Caretaker._history (caretaker w) = [].
Proof.
  destruct w as [[st rs] [h] out]. rewrite stateful_make. intros H.
  apply andb_true_iff in H. destruct H as [H _].
  apply andb_true_iff in H. destruct H as [_ Hh].
  destruct (Py.list_pop h) as [[m h']|] eqn:E.
  - left. pose proof (list_pop_some _ _ _ E) as Eh. subst h.
    rewrite forallb_snoc in Hh. apply andb_true_iff in Hh.
    destruct Hh as [_ Hm]. destruct (has_state_some m Hm) as (s' & d & ->).
    unfold Caretaker_undo_try, history_pop, Py.bind, get_history.
    cbn [caretaker Caretaker._history]. rewrite E. reflexivity.
  - right. exact (list_pop_none _ E).
Qed.

Lemma repeat_undo_empty n : forall o out,
  Py.repeat_call Caretaker_undo n (mkWorld o (Caretaker.make []) out)
  = (Py.Return tt, mkWorld o (Caretaker.make []) out).
Proof.
  induction n as [|n IH]; intros o out; [reflexivity|].
  cbn [Py.repeat_call]. unfold Py.bind. rewrite undo_empty. apply IH.
Qed.

End MementoInvariant.

(** ** Strings *)

Section Strings.

Lemma length_append (a b : string) :
  String.length (a ++ b) = String.length a + String.length b.
Proof. induction a as [|c a IH]; cbn; [reflexivity | now rewrite IH]. Qed.

Lemma length_substring_0 (n : nat) (s : string) :
  String.length (substring 0 n s) = Nat.min n (String.length s).
Proof.
  revert n. induction s as [|c s IH]; intros [|n]; cbn; try reflexivity.
  now rewrite IH.
Qed.

Lemma length_slice_0 (n : nat) (s : string) :
  String.length (Py.slice 0 n s) = Nat.min n (String.length s).
Proof. unfold Py.slice. rewrite Nat.sub_0_r. apply length_substring_0. Qed.

End Strings.

(** ** Further properties of the memento example *)

Section MementoFacts.
Local Open Scope py_scope.

(** X1.  Whatever the client calls on an originator created with a string,
    in whatever order, no call raises, the originator keeps a state and
    every snapshot on the history and on the [restored] list holds one; so
    in such a world the [try] suite of [Caretaker.undo] never raises when
    there is something to undo. *)
Theorem client_calls_keep_states :
  forall (s0 : string) out (cs : list Client.call),
    exists w,
      Client.perform_all cs (Memento.start (Some s0) out) = (Py.Return tt, w)
      /\ Client.stateful w = true
      /\ (fst (Memento.Caretaker_undo_try Memento.Originator_restore w)
          = Py.Return tt
          \/ Memento.Caretaker._history (Memento.caretaker w) = []).
Proof.
  intros s0 out cs.
  destruct (perform_all_stateful cs (Memento.start (Some s0) out) eq_refl)
    as (w & E & H).
  exists w. split; [exact E|]. split; [exact H|].
  now apply undo_try_stateful.
Qed.



(** X3.  Undoing the newest [k] snapshots and then calling [redo] [k] times,
    as the script of the example does with [k = 3], puts the history back
    exactly as it was and leaves the [restored] list as it was; the
    originator stays in the state of the oldest snapshot undone. *)
Theorem undo_all_redo_all :
  forall l,
    forallb Client.has_state l = true ->
    forall st rs h out,
    exists out',
      (Py.repeat_call Memento.Caretaker_undo (List.length l) ;;
       Py.repeat_call Memento.Caretaker_redo (List.length l))
        (Memento.mkWorld (Memento.Originator.make st rs)
                         (Memento.Caretaker.make (h ++ l)%list) out)
      = (Py.Return tt,
         Memento.mkWorld
           (Memento.Originator.make (hd st (map Memento.Snapshot.state l)) rs)
           (Memento.Caretaker.make (h ++ l)%list) out').
Proof.
  intros l Hl st rs h out.
  destruct (undo_repeat l Hl st rs h out) as [out1 E1].
  assert (Hrev : forallb Client.has_state (rev l) = true).
  { rewrite forallb_forall in Hl |- *. intros m Hm. apply Hl.
    now apply in_rev. }
  destruct (redo_repeat (rev l) Hrev (hd st (map Memento.Snapshot.state l))
              rs h out1) as [out2 E2].
  rewrite length_rev, rev_involutive in E2.
  exists out2. unfold Py.bind. rewrite E1. exact E2.
Qed.

Lemma undo_all_redo_all_witness :
  exists out',
    (Py.repeat_call Memento.Caretaker_undo 2 ;;
     Py.repeat_call Memento.Caretaker_redo 2)
      (Memento.mkWorld
         (Memento.Originator.make (Some "klmno") [])
         (Memento.Caretaker.make
            ([Memento.Snapshot.make (Some "Super") "2024-05-01 10:00:00"]
             ++ [Memento.Snapshot.make (Some "abcde") "2024-05-01 10:00:01";
                 Memento.Snapshot.make (Some "fghij") "2024-05-01 10:00:02"])%list)
         [])
    = (Py.Return tt,
       Memento.mkWorld
         (Memento.Originator.make (Some "abcde") [])
         (Memento.Caretaker.make
            ([Memento.Snapshot.make (Some "Super") "2024-05-01 10:00:00"]
             ++ [Memento.Snapshot.make (Some "abcde") "2024-05-01 10:00:01";
                 Memento.Snapshot.make (Some "fghij") "2024-05-01 10:00:02"])%list)
         out').
Proof.
  exact (undo_all_redo_all
           [Memento.Snapshot.make (Some "abcde") "2024-05-01 10:00:01";
            Memento.Snapshot.make (Some "fghij") "2024-05-01 10:00:02"]
           eq_refl (Some "klmno") []
           [Memento.Snapshot.make (Some "Super") "2024-05-01 10:00:00"] []).
Defined.

(** X4.  [redo] followed by [undo] is what puts a redone snapshot's state
    into the originator: both lists end as they started and the
    originator's state is the state of the snapshot on top of the
    [restored] list. *)
Theorem redo_then_undo_applies_snapshot :
  forall st rs h (s d : string) out,
    exists out',
      (Memento.Caretaker_redo ;; Memento.Caretaker_undo)
        (Memento.mkWorld
           (Memento.Originator.make st (rs ++ [Memento.Snapshot.make (Some s) d])%list)
           (Memento.Caretaker.make h) out)
      = (Py.Return tt,
         Memento.mkWorld
           (Memento.Originator.make (Some s)
              (rs ++ [Memento.Snapshot.make (Some s) d])%list)
           (Memento.Caretaker.make h) out').
Proof.
  intros st rs h s d out.
  destruct (redo_step st rs h s d out) as [out1 E1].
  destruct (undo_step st rs h s d out1) as [out2 E2].
  exists out2. unfold Py.bind. rewrite E1. exact E2.
Qed.

(** X5.  A [backup] followed at once by [undo] leaves the originator's state
    and the history as they were, but the snapshot just taken ends on the
    [restored] list. *)
Theorem backup_then_undo :
  forall now (s : string) rs h out,
    exists out',
      (Memento.Caretaker_backup now ;; Memento.Caretaker_undo)
        (Memento.mkWorld (Memento.Originator.make (Some s) rs)
                         (Memento.Caretaker.make h) out)
      = (Py.Return tt,
         Memento.mkWorld
           (Memento.Originator.make (Some s)
              (rs ++ [Memento.Snapshot.init now (Some s)])%list)
           (Memento.Caretaker.make h) out').
Proof.
  intros now s rs h out.
  destruct (backup_step s rs h out now) as [out1 E1].
  destruct (undo_step (Some s) rs h s (Py.slice 0 19 now) out1) as [out2 E2].
  exists out2. unfold Py.bind. rewrite E1. exact E2.
Qed.

(** X6.  A snapshot without a state is lost by [undo] and by [redo]: the
    call pops it, the [name] property raises inside the [try] suite, the
    handler prints its line, and the snapshot is on neither list
    afterwards; the originator's state is untouched. *)
Theorem stateless_snapshot_is_dropped :
  (forall st rs h d out,
     Memento.Caretaker_undo
       (Memento.mkWorld (Memento.Originator.make st rs)
          (Memento.Caretaker.make (h ++ [Memento.Snapshot.make None d])%list) out)
     = (Py.Return tt,
        Memento.mkWorld (Memento.Originator.make st rs) (Memento.Caretaker.make h)
                        (out ++ ["Cannot undo"])%list))
  /\
  (forall st rs h d out,
     Memento.Caretaker_redo
       (Memento.mkWorld
          (Memento.Originator.make st (rs ++ [Memento.Snapshot.make None d])%list)
          (Memento.Caretaker.make h) out)
     = (Py.Return tt,
        Memento.mkWorld (Memento.Originator.make st rs) (Memento.Caretaker.make h)
                        (out ++ ["Cannot redo"])%list)).
Proof.
  split; intros.
  - apply undo_stateless.
  - apply redo_stateless.
Qed.

(** X7.  The [name] of a snapshot taken by [save] is short whatever the size
    of the state: the first 19 characters of the time, the first 9 of the
    state and 8 characters around them, at most 36 in all. *)
Theorem snapshot_name_length :
  forall (now s : string) (w : Memento.World),
    exists txt,
      Memento.Snapshot.name (Memento.Snapshot.init now (Some s)) w
      = (Py.Return txt, w)
      /\ String.length txt
         = Nat.min 19 (String.length now) + Nat.min 9 (String.length s) + 8
      /\ String.length txt <= 36.
Proof.
  intros now s w. eexists. split; [reflexivity|].
  assert (E : String.length
                (Py.slice 0 19 now ++ " / (" ++ Py.slice 0 9 s ++ "...)")
              = Nat.min 19 (String.length now) + Nat.min 9 (String.length s) + 8).
  { rewrite !length_append, !length_slice_0. cbn [String.length]. lia. }
  cbn [Memento.Snapshot.date Memento.Snapshot.init].
  split; [exact E|]. rewrite E. lia.
Qed.

(** X8.  [show_history] over snapshots that all hold a state returns, prints
    its heading and then one line for each snapshot, and changes neither
    the originator nor the caretaker. *)
Theorem show_history_prints_a_line_each :
  forall o h out,
    forallb Client.has_state h = true ->
    exists lines,
      Memento.Caretaker_show_history
        (Memento.mkWorld o (Memento.Caretaker.make h) out)
      = (Py.Return tt,
         Memento.mkWorld o (Memento.Caretaker.make h)
           (out ++ "Caretaker: Here's the list of mementos:" :: lines)%list)
      /\ List.length lines = List.length h.
Proof. intros. now apply show_history_stateful. Qed.

Lemma show_history_prints_a_line_each_witness :
  exists lines,
    Memento.Caretaker_show_history
      (Memento.mkWorld (Memento.Originator.make (Some "abcde") [])
         (Memento.Caretaker.make
            [Memento.Snapshot.make (Some "Super") "2024-05-01 10:00:00"]) [])
    = (Py.Return tt,
       Memento.mkWorld (Memento.Originator.make (Some "abcde") [])
         (Memento.Caretaker.make
            [Memento.Snapshot.make (Some "Super") "2024-05-01 10:00:00"])
         ([] ++ "Caretaker: Here's the list of mementos:" :: lines)%list)
    /\ List.length lines
       = List.length [Memento.Snapshot.make (Some "Super") "2024-05-01 10:00:00"].
Proof.
  exact (show_history_prints_a_line_each
           (Memento.Originator.make (Some "abcde") [])
           [Memento.Snapshot.make (Some "Super") "2024-05-01 10:00:00"] []
           eq_refl).
Defined.

(** X9.  Undoing more often than there are snapshots stops at the oldest
    one: with [k] calls too many the history is empty, the originator is in
    the state of the oldest snapshot and every snapshot is on the
    [restored] list, newest first, as after exactly enough calls. *)
Theorem undo_beyond_oldest :
  forall l k,
    forallb Client.has_state l = true ->
    forall st rs out,
    exists out',
      Py.repeat_call Memento.Caretaker_undo (List.length l + k)
        (Memento.mkWorld (Memento.Originator.make st rs)
                         (Memento.Caretaker.make l) out)
      = (Py.Return tt,
         Memento.mkWorld
           (Memento.Originator.make (hd st (map Memento.Snapshot.state l))
                                    (rs ++ rev l)%list)
           (Memento.Caretaker.make []) out').
Proof.
  intros l k Hl st rs out.
  destruct (undo_repeat l Hl st rs [] out) as [out1 E1].
  cbn [app] in E1.
  exists out1. rewrite repeat_call_add. unfold Py.bind. rewrite E1.
  apply repeat_undo_empty.
Qed.

Lemma undo_beyond_oldest_witness :
  exists out',
    Py.repeat_call Memento.Caretaker_undo (1 + 2)
      (Memento.mkWorld (Memento.Originator.make (Some "abcde") [])
         (Memento.Caretaker.make
            [Memento.Snapshot.make (Some "Super") "2024-05-01 10:00:00"]) [])
    = (Py.Return tt,
       Memento.mkWorld
         (Memento.Originator.make (Some "Super")
            [Memento.Snapshot.make (Some "Super") "2024-05-01 10:00:00"])
         (Memento.Caretaker.make []) out').
Proof.
  exact (undo_beyond_oldest
           [Memento.Snapshot.make (Some "Super") "2024-05-01 10:00:00"] 2
           eq_refl (Some "abcde") [] []).
Defined.

End MementoFacts.

(** ** [str.replace] with a non-empty pattern and an empty replacement *)

Section Replace.
Variables (a : ascii) (o : string).
Let old : string := String a o.

Lemma replace_from_length s : forall k,
  String.length (Py.replace_from k old "" s) <= String.length s - k.
Proof.
  induction s as [|c s IH]; intros k.
  - cbn. lia.
  - destruct k as [|k].
    + change (Py.replace_from 0 old "" (String c s))
        with (if prefix old (String c s)
              then ("" ++ Py.replace_from (String.length old - 1) old "" s)%string
              else String c (Py.replace_from 0 old "" s)).
      destruct (prefix old (String c s)).
      * cbn [append String.length]. specialize (IH (String.length old - 1)). lia.
      * cbn [String.length]. specialize (IH 0). lia.
    + change (Py.replace_from (S k) old "" (String c s))
        with (Py.replace_from k old "" s).
      cbn [String.length]. specialize (IH k). lia.
Qed.

Lemma replace_occurs_shorter s :
  Client.occurs old s = true ->
  String.length (Py.replace old "" s) < String.length s.
Proof.
  unfold Py.replace. induction s as [|c s IH]; intros H.
  - cbn in H. discriminate H.
  - change (Py.replace_from 0 old "" (String c s))
      with (if prefix old (String c s)
            then ("" ++ Py.replace_from (String.length old - 1) old "" s)%string
            else String c (Py.replace_from 0 old "" s)).
    cbn [Client.occurs] in H.
    destruct (prefix old (String c s)).
    + cbn [append String.length].
      pose proof (replace_from_length s (String.length old - 1)). lia.
    + cbn [orb] in H. cbn [String.length]. specialize (IH H). lia.
Qed.

Lemma replace_no_occurrence (new s : string) :
  Client.occurs old s = false -> Py.replace old new s = s.
Proof.
  unfold Py.replace. induction s as [|c s IH]; intros H.
  - reflexivity.
  - change (Py.replace_from 0 old new (String c s))
      with (if prefix old (String c s)
            then (new ++ Py.replace_from (String.length old - 1) old new s)%string
            else String c (Py.replace_from 0 old new s)).
    cbn [Client.occurs] in H. apply orb_false_iff in H. destruct H as [Hp Ho].
    rewrite Hp, (IH Ho). reflexivity.
Qed.

End Replace.

(** ** Further properties of the command example *)

Section CommandFacts.
Local Open Scope py_scope.

Lemma serve_depth r a :
  Obs.backed_up a = true ->
  List.length (Command.stack (Command.history (snd (Command.serve r a))))
  = Client.depth_after (List.length (Command.stack (Command.history a))) r.
Proof.
  destruct a as [clip [t] [h]]. intros H.
  assert (Hundo :
            List.length
              (Command.stack
                 (Command.history
                    (snd (Command.Application_undo
                            (Command.mkApp clip (Command.mkEditor t)
                                           (Command.mkHistory h))))))
            = Nat.pred (List.length h)).
  { destruct (Py.list_pop h) as [[c h']|] eqn:E.
    - apply list_pop_some in E. subst h. rewrite app_undo_step.
      cbn [snd Command.history Command.stack].
      rewrite length_app, Nat.add_comm. reflexivity.
    - apply list_pop_none in E. subst h. reflexivity. }
  destruct t as [t|]; [|discriminate H].
  destruct r as [[| | |]|]; unfold Command.serve, Command.new.
  - rewrite press_copy. reflexivity.
  - change (Command.mkCommand Command.CutCommand None)
      with (Command.new Command.CutCommand).
    rewrite press_cut. cbn [snd Command.history Command.stack Client.depth_after].
    rewrite length_app, Nat.add_comm. reflexivity.
  - change (Command.mkCommand Command.PasteCommand None)
      with (Command.new Command.PasteCommand).
    rewrite press_paste. cbn [snd Command.history Command.stack Client.depth_after].
    rewrite length_app, Nat.add_comm. reflexivity.
  - rewrite press_undo. exact Hundo.
  - exact Hundo.
Qed.

(** X10.  A Cut or a Paste followed by an undo, through the button or by a
    direct call, leaves the editor's text and the history as they were
    before the command. *)
Theorem press_then_undo :
  forall k (clip t : string) h,
    Obs.mutating k = true ->
    exists clip',
      Command.serve_all [Command.Press k; Command.Press Command.UndoCommand]
        (Command.mkApp clip (Command.mkEditor (Some t)) (Command.mkHistory h))
      = (Py.Return tt,
         Command.mkApp clip' (Command.mkEditor (Some t)) (Command.mkHistory h))
      /\ Command.serve_all [Command.Press k; Command.CallUndo]
           (Command.mkApp clip (Command.mkEditor (Some t)) (Command.mkHistory h))
         = (Py.Return tt,
            Command.mkApp clip' (Command.mkEditor (Some t)) (Command.mkHistory h)).
Proof.
  intros k clip t h Hk.
  destruct (press_mutating k clip t h Hk) as (clip1 & t1 & E1).
  exists clip1.
  cbn [Command.serve_all Command.serve]. unfold Py.bind.
  rewrite E1. unfold Command.new at 1. rewrite press_undo, app_undo_step.
  split; reflexivity.
Qed.

Lemma press_then_undo_witness :
  exists clip',
    Command.serve_all
      [Command.Press Command.PasteCommand; Command.Press Command.UndoCommand]
      (Command.mkApp "ab" (Command.mkEditor (Some "x")) (Command.mkHistory []))
    = (Py.Return tt,
       Command.mkApp clip' (Command.mkEditor (Some "x")) (Command.mkHistory []))
    /\ Command.serve_all [Command.Press Command.PasteCommand; Command.CallUndo]
         (Command.mkApp "ab" (Command.mkEditor (Some "x")) (Command.mkHistory []))
       = (Py.Return tt,
          Command.mkApp clip' (Command.mkEditor (Some "x")) (Command.mkHistory [])).
Proof.
  exact (press_then_undo Command.PasteCommand "ab" "x" [] eq_refl).
Defined.

(** X11.  A Cut never makes the text longer, always records itself with the
    text it found as backup, and leaves the text as it was exactly when
    "selected text" does not occur in it. *)
Theorem cut_changes_text_iff_selection_occurs :
  forall (clip t : string) h,
    exists t',
      Command.Application_execute_command (Command.new Command.CutCommand)
        (Command.mkApp clip (Command.mkEditor (Some t)) (Command.mkHistory h))
      = (Py.Return tt,
         Command.mkApp "selected text" (Command.mkEditor (Some t'))
           (Command.mkHistory
              (h ++ [Command.mkCommand Command.CutCommand (Some t)])%list))
      /\ String.length t' <= String.length t
      /\ (t' = t <-> Client.occurs "selected text" t = false).
Proof.
  intros clip t h. exists (Py.replace "selected text" "" t).
  split; [apply press_cut|]. split.
  - pose proof (replace_from_length "s" "elected text" t 0) as L.
    unfold Py.replace. lia.
  - split.
    + intros E. destruct (Client.occurs "selected text" t) eqn:O; [|reflexivity].
      pose proof (replace_occurs_shorter "s" "elected text" t O) as L.
      rewrite E in L. lia.
    + apply (replace_no_occurrence "s" "elected text").
Qed.

(** X12.  From a fresh application the depth of the history is counted by
    the requests alone: a Cut or a Paste adds one command, an undo, by
    button or by call, removes one if there is any, a Copy changes
    nothing. *)
Theorem history_depth :
  forall rs : list Command.request,
    exists a,
      Command.serve_all rs Command.Application_init = (Py.Return tt, a)
      /\ List.length (Command.stack (Command.history a))
         = fold_left Client.depth_after rs 0.
Proof.
  intros rs.
  assert (G : forall rs a,
             Obs.backed_up a = true ->
             exists a',
               Command.serve_all rs a = (Py.Return tt, a')
               /\ List.length (Command.stack (Command.history a'))
                  = fold_left Client.depth_after rs
                      (List.length (Command.stack (Command.history a)))).
  { clear. induction rs as [|r rs IH]; intros a H.
    - exists a. split; reflexivity.
    - destruct (serve_backed_up r a H) as (a1 & E1 & H1).
      destruct (IH a1 H1) as (a2 & E2 & L2).
      exists a2. split.
      + cbn [Command.serve_all]. unfold Py.bind. rewrite E1. exact E2.
      + cbn [fold_left]. rewrite <- (serve_depth r a H), E1. exact L2. }
  exact (G rs Command.Application_init eq_refl).
Qed.

(** X13.  [Command.undo] of a command that never executed puts [None] in the
    editor's text.  On such an editor a Paste raises [TypeError] and
    changes nothing, a Cut raises [AttributeError] after it has overwritten
    the clipboard; neither is recorded. *)
Theorem undo_of_unexecuted_command_breaks_editor :
  forall k clip ed h,
    Command.Command_undo (Command.new k) (Command.mkApp clip ed h)
    = (Py.Return tt, Command.mkApp clip (Command.mkEditor None) h)
    /\ Command.Application_execute_command (Command.new Command.PasteCommand)
         (Command.mkApp clip (Command.mkEditor None) h)
       = (Py.Raise Py.TypeError, Command.mkApp clip (Command.mkEditor None) h)
    /\ Command.Application_execute_command (Command.new Command.CutCommand)
         (Command.mkApp clip (Command.mkEditor None) h)
       = (Py.Raise Py.AttributeError,
          Command.mkApp "selected text" (Command.mkEditor None) h).
Proof. intros k clip ed h. repeat split. Qed.

(** X14.  [create_ui], on any application whose editor holds a text: the
    Copy is not recorded, the Cut is, the Paste is recorded and then undone
    by the undo button; what is left is the text as the Cut made it, the
    selection on the clipboard and the Cut alone added to the history. *)
Theorem create_ui_effect :
  forall (clip t : string) h,
    Command.Application_create_ui
      (Command.mkApp clip (Command.mkEditor (Some t)) (Command.mkHistory h))
    = (Py.Return tt,
       Command.mkApp "selected text"
         (Command.mkEditor (Some (Py.replace "selected text" "" t)))
         (Command.mkHistory
            (h ++ [Command.mkCommand Command.CutCommand (Some t)])%list)).
Proof.
  intros clip t h. unfold Command.Application_create_ui, Py.bind.
  unfold Command.new at 1. rewrite press_copy, press_cut, press_paste.
  unfold Command.new at 1. rewrite press_undo, app_undo_step. reflexivity.
Qed.

(** X15.  The command history is a stack: [pop] right after [push] returns
    the command pushed and leaves the application as it was before the
    [push]; [pop] on an empty history returns [None] and changes nothing. *)
Theorem history_push_pop :
  (forall c a,
     (Command.CommandHistory_push c ;; Command.CommandHistory_pop) a
     = (Py.Return (Some c), a))
  /\
  (forall clip ed,
     Command.CommandHistory_pop (Command.mkApp clip ed (Command.mkHistory []))
     = (Py.Return None, Command.mkApp clip ed (Command.mkHistory []))).
Proof.
  split.
  - intros c [clip ed [h]].
    unfold Command.CommandHistory_push, Command.CommandHistory_pop, Py.bind,
      Command.get_stack, Command.set_stack.
    cbn [Command.history Command.stack Command.clipboard Command.active_editor].
    rewrite list_pop_snoc. reflexivity.
  - reflexivity.
Qed.

End CommandFacts.
